(** * Copilot API server: process runner and workflow orchestration

    A shallow embedding of [copilot_api_server.py].  The server shells out
    to an assistant CLI and to git; everything it observes of the outside
    world goes through [os.path.exists], [subprocess.run] and
    [datetime.now].  These three are oracles of a [World]; every call to the
    first two is recorded, in order, in a log of [Event]s, so that "no
    subprocess was spawned" or "commit was never invoked" are statements
    about that log.  Calls to [logger] have no part in what a route returns
    and are left out. *)

From Stdlib Require Import String Ascii List ZArith Bool Lia.
Import ListNotations.
Local Open Scope string_scope.
Local Open Scope Z_scope.
Local Open Scope list_scope.

(** ** The Python primitives the server uses *)

Module Py.

(** Truth value of a [str] and of an optional [str] ([None] is falsy). *)
Definition truthy (s : string) : bool := negb (s =? "")%string.

Definition truthy_opt (o : option string) : bool :=
  match o with
  | Some s => truthy s
  | None => false
  end.

(** Truth value of an optional list: [None] and [[]] are falsy. *)
Definition truthy_list {A : Type} (o : option (list A)) : bool :=
  match o with
  | Some (_ :: _) => true
  | _ => false
  end.

(** The value behind a truthy optional. *)
Definition str_of (o : option string) : string :=
  match o with Some s => s | None => EmptyString end.

Definition list_of {A : Type} (o : option (list A)) : list A :=
  match o with Some l => l | None => [] end.

(** [s.split(sep)] for a one-character separator: never the empty list;
    [''.split(',')] is [['']]. *)
Fixpoint split (sep : ascii) (s : string) : list string :=
  match s with
  | EmptyString => [EmptyString]
  | String c rest =>
      if Ascii.eqb c sep then EmptyString :: split sep rest
      else match split sep rest with
           | seg :: segs => String c seg :: segs
           | [] => [String c EmptyString]
           end
  end.

(** [sep.join(parts)]. *)
Definition join (sep : string) (parts : list string) : string :=
  String.concat sep parts.

(** [x in l] on a list of strings: equality of strings, element by
    element. *)
Definition contains (x : string) (l : list string) : bool :=
  existsb (String.eqb x) l.

Definition startswith_sep (s : string) : bool :=
  match s with
  | String c _ => Ascii.eqb c "/"
  | EmptyString => false
  end.

Fixpoint endswith_sep (s : string) : bool :=
  match s with
  | EmptyString => false
  | String c EmptyString => Ascii.eqb c "/"
  | String _ rest => endswith_sep rest
  end.

(** [os.path.join(a, b)] of posixpath, two arguments. *)
Definition path_join (a b : string) : string :=
  if startswith_sep b then b
  else if negb (truthy a) || endswith_sep a then (a ++ b)%string
  else (a ++ "/" ++ b)%string.

(** A [dict] with string keys, in insertion order; [d[k] = v]. *)
Definition dict (V : Type) : Type := list (string * V).

Fixpoint setitem {V : Type} (d : dict V) (k : string) (v : V) : dict V :=
  match d with
  | [] => [(k, v)]
  | (k', v') :: rest =>
      if (k' =? k)%string then (k, v) :: rest
      else (k', v') :: setitem rest k v
  end.

Fixpoint getitem {V : Type} (d : dict V) (k : string) : option V :=
  match d with
  | [] => None
  | (k', v) :: rest => if (k' =? k)%string then Some v else getitem rest k
  end.

Definition keys {V : Type} (d : dict V) : list string := map fst d.

End Py.

(** ** The outside world *)

(** What [subprocess.run(command, cwd=..., capture_output=True, text=True,
    timeout=...)] does: return a completed process, raise [TimeoutExpired],
    or raise some other exception [e] (missing binary, permission error,
    ...), of which only [str(e)] is observed. *)
Inductive ProcOutcome : Type :=
| Completed (returncode : Z) (stdout stderr : string)
| TimeoutExpired
| LaunchError (message : string).

Inductive Event : Type :=
| PathExists (path : string)
| SubprocessRun (command : list string) (cwd : string).

(** The oracles answer as a function of everything that happened before in
    the request. *)
Record World : Type := {
  os_path_exists : list Event -> string -> bool;
  subprocess_run : list Event -> list string -> string -> Z -> ProcOutcome;
  datetime_now : list Event -> string
}.

(** The only exception that reaches a route's [except Exception]. *)
Inductive Exn : Type :=
| ValueError (message : string).

Definition str_exn (e : Exn) : string :=
  match e with ValueError m => m end.

Inductive Exc (A : Type) : Type :=
| Ok (a : A)
| Raise (e : Exn).
Arguments Ok {A} a.
Arguments Raise {A} e.

(** Computations: read the log so far, return or raise, extend the log. *)
Definition M (A : Type) : Type := list Event -> Exc A * list Event.

Definition ret {A : Type} (a : A) : M A := fun log => (Ok a, log).

Definition raise {A : Type} (e : Exn) : M A := fun log => (Raise e, log).

Definition bind {A B : Type} (m : M A) (k : A -> M B) : M B :=
  fun log =>
    match m log with
    | (Ok a, log') => k a log'
    | (Raise e, log') => (Raise e, log')
    end.

(** [try: m  except Exception as e: return h e], around a whole route. *)
Definition try_except {A : Type} (m : M A) (h : Exn -> A)
  : list Event -> A * list Event :=
  fun log =>
    match m log with
    | (Ok a, log') => (a, log')
    | (Raise e, log') => (h e, log')
    end.

Declare Scope py_scope.
Delimit Scope py_scope with py.
Notation "x <- m ;; k" := (bind m (fun x => k))
  (at level 100, m at next level, right associativity) : py_scope.
Notation "m ;;; k" := (bind m (fun _ => k))
  (at level 100, right associativity) : py_scope.
Local Open Scope py_scope.

(** ** Results and responses *)

(** The dict [run_command] returns: always these four keys. *)
Record CommandResult : Type := {
  success : bool;
  stdout : string;
  stderr : string;
  returncode : Z
}.

(** What is handed to [jsonify]. *)
#[warnings="-register-all"]
Inductive json : Type :=
| JNull
| JBool (b : bool)
| JInt (z : Z)
| JStr (s : string)
| JObj (fields : Py.dict json).

Definition json_of_result (r : CommandResult) : json :=
  JObj [("success", JBool (success r));
        ("stdout", JStr (stdout r));
        ("stderr", JStr (stderr r));
        ("returncode", JInt (returncode r))].

Definition json_of_results (d : Py.dict CommandResult) : json :=
  JObj (map (fun kv => (fst kv, json_of_result (snd kv))) d).

Definition field (k : string) (j : json) : option json :=
  match j with
  | JObj fields => Py.getitem fields k
  | _ => None
  end.

(** A route returns [jsonify(body)] (status 200) or [jsonify(body), code].
    The body is the dict handed to [jsonify]; the order in which Flask
    writes its keys out is not part of the model. *)
Record Response : Type := {
  body : json;
  status : Z
}.

Definition jsonify (fields : Py.dict json) : Response :=
  {| body := JObj fields; status := 200 |}.

Definition with_status (r : Response) (code : Z) : Response :=
  {| body := body r; status := code |}.

(** The parsed JSON body of a request: each key absent ([None]) or
    present. *)
Record Request : Type := {
  repo_name : option string;
  prompt : option string;
  commit_message : option string;
  branch : option string;
  files : option (list string)
}.

(** ** The executor *)

(** [os.path.exists(path)] *)
Definition path_exists (w : World) (path : string) : M bool :=
  fun log => (Ok (os_path_exists w log path), log ++ [PathExists path]).

(** [datetime.now().isoformat()] *)
Definition now_isoformat (w : World) : M string :=
  fun log => (Ok (datetime_now w log), log).

Module CopilotExecutor.
Section Methods.

(** The world, and [self.repo_path]. *)
Variable w : World.
Variable repo_path : string.

Definition validate_repo : M unit :=
  e <- path_exists w repo_path ;;
  if negb e then
    raise (ValueError ("Repository path does not exist: " ++ repo_path))
  else
    let git_dir := Py.path_join repo_path ".git" in
    g <- path_exists w git_dir ;;
    if negb g then
      raise (ValueError ("Not a git repository: " ++ repo_path))
    else ret tt.

(** [cwd or self.repo_path] *)
Definition cwd_or (cwd : option string) : string :=
  match cwd with
  | Some d => if Py.truthy d then d else repo_path
  | None => repo_path
  end.

(** The three branches of [run_command]: the [try] body and the two
    [except] clauses, each building the result dict. *)
Definition result_of_outcome (o : ProcOutcome) : CommandResult :=
  match o with
  | Completed rc out err =>
      {| success := rc =? 0; stdout := out; stderr := err;
         returncode := rc |}
  | TimeoutExpired =>
      {| success := false; stdout := "";
         stderr := "Command timed out after 5 minutes";
         returncode := -1 |}
  | LaunchError e =>
      {| success := false; stdout := ""; stderr := e; returncode := -1 |}
  end.

Definition run_command (command : list string) (cwd : option string)
  : M CommandResult :=
  fun log =>
    let dir := cwd_or cwd in
    (Ok (result_of_outcome (subprocess_run w log command dir 300)),
     log ++ [SubprocessRun command dir]).

Definition copilot_command (prompt : string) (files : option (list string))
  : list string :=
  let command := ["gh"; "copilot"; "suggest"] in
  let command :=
    if Py.truthy_list files
    then command ++ ["--files"; Py.join "," (Py.list_of files)]
    else command in
  command ++ [prompt].

Definition execute_copilot (prompt : string) (files : option (list string))
  : M CommandResult :=
  run_command (copilot_command prompt files) None.

Definition git_status : M CommandResult :=
  run_command ["git"; "status"; "--porcelain"] None.

Definition git_add_command (files : option (list string)) : list string :=
  if Py.truthy_list files then ["git"; "add"] ++ Py.list_of files
  else ["git"; "add"; "-A"].

Definition git_add (files : option (list string)) : M CommandResult :=
  run_command (git_add_command files) None.

Definition git_commit (message : string) : M CommandResult :=
  run_command ["git"; "commit"; "-m"; message] None.

Definition git_push_command (branch : option string) (remote : string)
  : list string :=
  let command := ["git"; "push"; remote] in
  if Py.truthy_opt branch then command ++ [Py.str_of branch] else command.

Definition git_push (branch : option string) : M CommandResult :=
  run_command (git_push_command branch "origin") None.

Definition git_checkout_branch (branch : string) (create : bool)
  : M CommandResult :=
  let command := ["git"; "checkout"] in
  let command := if create then command ++ ["-b"] else command in
  run_command (command ++ [branch]) None.

End Methods.
End CopilotExecutor.

(** ** Request validation and the routes *)

Definition json_of_opt (o : option string) : json :=
  match o with
  | Some s => JStr s
  | None => JNull
  end.

(** [os.getenv('ALLOWED_REPOS', '').split(',')] *)
Definition allowed_repos_of_env (value : string) : list string :=
  Py.split "," value.

Section Routes.

(** The module-level configuration and the world of one request. *)
Variable REPOS_BASE_PATH : string.
Variable ALLOWED_REPOS : list string.
Variable w : World.

(** [ALLOWED_REPOS and ALLOWED_REPOS[0]] *)
Definition whitelist_configured : bool :=
  match ALLOWED_REPOS with
  | first :: _ => Py.truthy first
  | [] => false
  end.

Definition validate_request (data : Request) : bool * option string :=
  let repo_name := repo_name data in
  if negb (Py.truthy_opt repo_name) then
    (false, Some "repo_name is required")
  else if whitelist_configured
          && negb (Py.contains (Py.str_of repo_name) ALLOWED_REPOS) then
    (false,
     Some ("Repository " ++ Py.str_of repo_name ++ " is not allowed")%string)
  else (true, None).

(** The [except Exception as e] clause shared by the three routes. *)
Definition internal_error (e : Exn) : Response :=
  with_status (jsonify [("error", JStr (str_exn e))]) 500.

(** POST /api/copilot/execute *)
Definition execute_copilot (data : Request)
  : list Event -> Response * list Event :=
  try_except
    (let '(is_valid, error_msg) := validate_request data in
     if negb is_valid then
       ret (with_status (jsonify [("error", json_of_opt error_msg)]) 400)
     else
       let repo_name := Py.str_of (repo_name data) in
       let prompt := prompt data in
       let files :=
         match files data with Some f => Some f | None => Some [] end in
       if negb (Py.truthy_opt prompt) then
         ret (with_status (jsonify [("error", JStr "prompt is required")])
                400)
       else
         let repo_path := Py.path_join REPOS_BASE_PATH repo_name in
         CopilotExecutor.validate_repo w repo_path ;;;
         result <- CopilotExecutor.execute_copilot w repo_path
                     (Py.str_of prompt) files ;;
         st <- CopilotExecutor.git_status w repo_path ;;
         ts <- now_isoformat w ;;
         ret (jsonify [("success", JBool (success result));
                       ("output", JStr (stdout result));
                       ("error", JStr (stderr result));
                       ("git_status", JStr (stdout st));
                       ("timestamp", JStr ts)]))
    internal_error.

(** POST /api/git/commit-and-push *)
Definition commit_and_push (data : Request)
  : list Event -> Response * list Event :=
  try_except
    (let '(is_valid, error_msg) := validate_request data in
     if negb is_valid then
       ret (with_status (jsonify [("error", json_of_opt error_msg)]) 400)
     else
       let repo_name := Py.str_of (repo_name data) in
       let commit_message := commit_message data in
       let branch := branch data in
       let files := files data in
       if negb (Py.truthy_opt commit_message) then
         ret (with_status
                (jsonify [("error", JStr "commit_message is required")])
                400)
       else
         let repo_path := Py.path_join REPOS_BASE_PATH repo_name in
         CopilotExecutor.validate_repo w repo_path ;;;
         let results : Py.dict CommandResult := [] in
         add_result <- CopilotExecutor.git_add w repo_path files ;;
         let results := Py.setitem results "add" add_result in
         if negb (success add_result) then
           ret (with_status
                  (jsonify [("error", JStr "Failed to stage files");
                            ("details", JStr (stderr add_result))])
                  500)
         else
           commit_result <- CopilotExecutor.git_commit w repo_path
                              (Py.str_of commit_message) ;;
           let results := Py.setitem results "commit" commit_result in
           if negb (success commit_result) then
             ret (with_status
                    (jsonify [("error", JStr "Failed to commit");
                              ("details", JStr (stderr commit_result))])
                    500)
           else
             push_result <- CopilotExecutor.git_push w repo_path branch ;;
             let results := Py.setitem results "push" push_result in
             if negb (success push_result) then
               ret (with_status
                      (jsonify [("error", JStr "Failed to push");
                                ("details", JStr (stderr push_result))])
                      500)
             else
               ts <- now_isoformat w ;;
               ret (jsonify
                      [("success", JBool true);
                       ("message",
                        JStr "Changes committed and pushed successfully");
                       ("results",
                        JObj [("add", JStr (stdout add_result));
                              ("commit", JStr (stdout commit_result));
                              ("push", JStr (stdout push_result))]);
                       ("timestamp", JStr ts)]))
    internal_error.

(** POST /api/workflow/copilot-commit-push *)
Definition copilot_commit_push_workflow (data : Request)
  : list Event -> Response * list Event :=
  try_except
    (let '(is_valid, error_msg) := validate_request data in
     if negb is_valid then
       ret (with_status (jsonify [("error", json_of_opt error_msg)]) 400)
     else
       let repo_name := Py.str_of (repo_name data) in
       let prompt := prompt data in
       let commit_message := commit_message data in
       let branch := branch data in
       let files := files data in
       if negb (Py.truthy_opt prompt) then
         ret (with_status (jsonify [("error", JStr "prompt is required")])
                400)
       else if negb (Py.truthy_opt commit_message) then
         ret (with_status
                (jsonify [("error", JStr "commit_message is required")])
                400)
       else
         let repo_path := Py.path_join REPOS_BASE_PATH repo_name in
         CopilotExecutor.validate_repo w repo_path ;;;
         let workflow_results : Py.dict CommandResult := [] in
         copilot_result <- CopilotExecutor.execute_copilot w repo_path
                             (Py.str_of prompt) files ;;
         let workflow_results :=
           Py.setitem workflow_results "copilot" copilot_result in
         if negb (success copilot_result) then
           ret (with_status
                  (jsonify
                     [("error", JStr "Copilot execution failed");
                      ("details", JStr (stderr copilot_result));
                      ("workflow_results",
                       json_of_results workflow_results)])
                  500)
         else
           add_result <- CopilotExecutor.git_add w repo_path files ;;
           let workflow_results :=
             Py.setitem workflow_results "add" add_result in
           if negb (success add_result) then
             ret (with_status
                    (jsonify
                       [("error", JStr "Failed to stage files");
                        ("details", JStr (stderr add_result));
                        ("workflow_results",
                         json_of_results workflow_results)])
                    500)
           else
             commit_result <- CopilotExecutor.git_commit w repo_path
                                (Py.str_of commit_message) ;;
             let workflow_results :=
               Py.setitem workflow_results "commit" commit_result in
             if negb (success commit_result) then
               ret (with_status
                      (jsonify
                         [("error", JStr "Failed to commit");
                          ("details", JStr (stderr commit_result));
                          ("workflow_results",
                           json_of_results workflow_results)])
                      500)
             else
               push_result <- CopilotExecutor.git_push w repo_path branch ;;
               let workflow_results :=
                 Py.setitem workflow_results "push" push_result in
               if negb (success push_result) then
                 ret (with_status
                        (jsonify
                           [("error", JStr "Failed to push");
                            ("details", JStr (stderr push_result));
                            ("workflow_results",
                             json_of_results workflow_results)])
                        500)
               else
                 ts <- now_isoformat w ;;
                 ret (jsonify
                        [("success", JBool true);
                         ("message",
                          JStr "Copilot workflow completed successfully");
                         ("workflow_results",
                          json_of_results workflow_results);
                         ("timestamp", JStr ts)]))
    internal_error.

End Routes.

(** The three POST routes registered with [app.route]. *)
Inductive Endpoint : Type :=
| ApiCopilotExecute
| ApiGitCommitAndPush
| ApiWorkflowCopilotCommitPush.

Definition dispatch (REPOS_BASE_PATH : string) (ALLOWED_REPOS : list string)
    (w : World) (endpoint : Endpoint) (data : Request)
  : list Event -> Response * list Event :=
  match endpoint with
  | ApiCopilotExecute =>
      execute_copilot REPOS_BASE_PATH ALLOWED_REPOS w data
  | ApiGitCommitAndPush =>
      commit_and_push REPOS_BASE_PATH ALLOWED_REPOS w data
  | ApiWorkflowCopilotCommitPush =>
      copilot_commit_push_workflow REPOS_BASE_PATH ALLOWED_REPOS w data
  end.

(** ** Reading the log *)

(** The commands handed to [subprocess.run], in order. *)
Fixpoint spawned (log : list Event) : list (list string) :=
  match log with
  | [] => []
  | SubprocessRun command _ :: rest => command :: spawned rest
  | PathExists _ :: rest => spawned rest
  end.

(** The filesystem probes, in order. *)
Fixpoint probed (log : list Event) : list string :=
  match log with
  | [] => []
  | PathExists path :: rest => path :: probed rest
  | SubprocessRun _ _ :: rest => probed rest
  end.

(** The result [run_command] built for each spawn of [log], in order, when
    [log] was played after [before] in world [w]. *)
Fixpoint results_after (w : World) (before log : list Event)
  : list CommandResult :=
  match log with
  | [] => []
  | SubprocessRun command dir :: rest =>
      CopilotExecutor.result_of_outcome
        (subprocess_run w before command dir 300)
      :: results_after w (before ++ [SubprocessRun command dir]) rest
  | PathExists path :: rest =>
      results_after w (before ++ [PathExists path]) rest
  end.

Definition results_of (w : World) (log : list Event) : list CommandResult :=
  results_after w [] log.

(** Which step of a workflow a command belongs to, by its leading words. *)
Inductive Step : Type := Generate | Add | Commit | Push | Status.

Definition step_of (command : list string) : option Step :=
  match command with
  | "gh" :: "copilot" :: "suggest" :: _ => Some Generate
  | "git" :: "add" :: _ => Some Add
  | "git" :: "commit" :: _ => Some Commit
  | "git" :: "push" :: _ => Some Push
  | "git" :: "status" :: _ => Some Status
  | _ => None
  end%string.

(** The event at position [i] of [log], as a workflow step. *)
Definition step_at (log : list Event) (i : nat) : option Step :=
  match nth_error log i with
  | Some (SubprocessRun command _) => step_of command
  | _ => None
  end.

(** The result of the command spawned at position [i] of [log], if the
    event there is a spawn: what [run_command] returned for it, the world
    having seen the first [i] events. *)
Definition result_at (w : World) (log : list Event) (i : nat)
  : option CommandResult :=
  match nth_error log i with
  | Some (SubprocessRun command dir) =>
      Some (CopilotExecutor.result_of_outcome
              (subprocess_run w (firstn i log) command dir 300))
  | _ => None
  end.

(** The command spawned at position [i] failed. *)
Definition failed_at (w : World) (log : list Event) (i : nat) : bool :=
  match result_at w log i with
  | Some r => negb (success r)
  | None => false
  end.

(** The keys of the [workflow_results] dict of a response, in the order
    the route inserted them. *)
Definition workflow_keys (r : Response) : list string :=
  match field "workflow_results" (body r) with
  | Some (JObj d) => Py.keys d
  | _ => []
  end.


(** ** Scripted worlds, for concrete runs *)

(** A world that ignores the past: [present] lists the paths that exist,
    [script] gives each command its outcome. *)
Definition scripted_world (present : list string)
    (script : list string -> ProcOutcome) (clock : string) : World :=
  {| os_path_exists := fun _ path => Py.contains path present;
     subprocess_run := fun _ command _ _ => script command;
     datetime_now := fun _ => clock |}.

Definition demo_paths : list string :=
  ["/var/repos/demo"; "/var/repos/demo/.git"].

Definition all_succeed (command : list string) : ProcOutcome :=
  Completed 0 "ok" "".

Definition always (o : ProcOutcome) (command : list string) : ProcOutcome := o.

Definition commit_fails (command : list string) : ProcOutcome :=
  match step_of command with
  | Some Commit => Completed 1 "" "nothing to commit"
  | _ => Completed 0 "ok" ""
  end.

Definition copilot_fails (command : list string) : ProcOutcome :=
  match step_of command with
  | Some Generate => Completed 2 "" "unknown command"
  | _ => Completed 0 "ok" ""
  end.

Definition add_fails (command : list string) : ProcOutcome :=
  match step_of command with
  | Some Add => Completed 128 "" "fatal: pathspec"
  | _ => Completed 0 "ok" ""
  end.

Definition demo_world (script : list string -> ProcOutcome) : World :=
  scripted_world demo_paths script "2024-01-01T00:00:00".

Definition request_for (name : string) : Request :=
  {| repo_name := Some name; prompt := None; commit_message := None;
     branch := None; files := None |}.

Definition demo_request : Request :=
  {| repo_name := Some "demo";
     prompt := Some "Add error handling";
     commit_message := Some "fix";
     branch := None;
     files := None |}.

(** ** The health route *)

(** GET /health: no [try], no validation, nothing but the clock. *)
Definition health_check (w : World) : list Event -> Response * list Event :=
  fun log =>
    (jsonify [("status", JStr "healthy");
              ("timestamp", JStr (datetime_now w log))],
     log).

(** ** The client library *)

(** [client_library.py].  The [requests.Session] of a client, with the
    headers set on it, is the transport: [post url payload] and [get url]
    stand for [self.session.post(url, json=payload)] and
    [self.session.get(url)], and answer with a status and a JSON body. *)
Module CopilotAPIClient.

(** [s.rstrip('/')] *)
Fixpoint rstrip_sep (s : string) : string :=
  match s with
  | EmptyString => EmptyString
  | String c rest =>
      match rstrip_sep rest with
      | EmptyString =>
          if Ascii.eqb c "/" then EmptyString else String c EmptyString
      | kept => String c kept
      end
  end.

(** What a method gives its caller: [response.json()], or the
    [requests.HTTPError] of [response.raise_for_status()]. *)
Inductive Outcome : Type :=
| Returned (payload : json)
| HTTPError (status_code : Z).

(** [response.raise_for_status(); return response.json()]: status codes
    400 to 599 raise. *)
Definition json_or_raise (response : Response) : Outcome :=
  if (400 <=? status response) && (status response <? 600)
  then HTTPError (status response)
  else Returned (body response).

Section Methods.

Variable post : string -> Request -> Response.
Variable get : string -> Response.

(** [self.base_url], as [__init__] stores it. *)
Variable base_url_argument : string.

Definition base_url : string := rstrip_sep base_url_argument.

Definition health_check : Outcome :=
  json_or_raise (get (base_url ++ "/health")).

Definition execute_copilot_payload (repo_name prompt : string)
    (files : option (list string)) : Request :=
  {| repo_name := Some repo_name;
     prompt := Some prompt;
     commit_message := None;
     branch := None;
     files := if Py.truthy_list files then files else None |}.

Definition execute_copilot (repo_name prompt : string)
    (files : option (list string)) : Outcome :=
  json_or_raise
    (post (base_url ++ "/api/copilot/execute")
       (execute_copilot_payload repo_name prompt files)).

Definition commit_and_push_payload (repo_name commit_message : string)
    (branch : option string) (files : option (list string)) : Request :=
  {| repo_name := Some repo_name;
     prompt := None;
     commit_message := Some commit_message;
     branch := if Py.truthy_opt branch then branch else None;
     files := if Py.truthy_list files then files else None |}.

Definition commit_and_push (repo_name commit_message : string)
    (branch : option string) (files : option (list string)) : Outcome :=
  json_or_raise
    (post (base_url ++ "/api/git/commit-and-push")
       (commit_and_push_payload repo_name commit_message branch files)).

Definition copilot_workflow_payload (repo_name prompt commit_message : string)
    (branch : option string) (files : option (list string)) : Request :=
  {| repo_name := Some repo_name;
     prompt := Some prompt;
     commit_message := Some commit_message;
     branch := if Py.truthy_opt branch then branch else None;
     files := if Py.truthy_list files then files else None |}.

Definition copilot_workflow (repo_name prompt commit_message : string)
    (branch : option string) (files : option (list string)) : Outcome :=
  json_or_raise
    (post (base_url ++ "/api/workflow/copilot-commit-push")
       (copilot_workflow_payload repo_name prompt commit_message branch
          files)).

End Methods.
End CopilotAPIClient.

(** The URL rule of each POST route, as given to [app.route]. *)
Definition rule (endpoint : Endpoint) : string :=
  match endpoint with
  | ApiCopilotExecute => "/api/copilot/execute"
  | ApiGitCommitAndPush => "/api/git/commit-and-push"
  | ApiWorkflowCopilotCommitPush => "/api/workflow/copilot-commit-push"
  end.

(** A run of [n] slashes. *)
Fixpoint slashes (n : nat) : string :=
  match n with
  | O => EmptyString
  | S m => String "/" (slashes m)
  end.

(** A request with its falsy optional keys dropped: an empty [branch] and
    an empty [files] list removed. *)
Definition without_empty (data : Request) : Request :=
  {| repo_name := repo_name data;
     prompt := prompt data;
     commit_message := commit_message data;
     branch := if Py.truthy_opt (branch data) then branch data else None;
     files := if Py.truthy_list (files data) then files data else None |}.

(** A transport that hands a payload posted to a route's URL straight to
    that route, in world [w], and answers 404 elsewhere. *)
Definition loopback (REPOS_BASE_PATH : string) (ALLOWED_REPOS : list string)
    (w : World) (origin : string) (url : string) (payload : Request)
  : Response :=
  let route endpoint :=
    fst (dispatch REPOS_BASE_PATH ALLOWED_REPOS w endpoint payload []) in
  if (url =? origin ++ rule ApiCopilotExecute)%string
  then route ApiCopilotExecute
  else if (url =? origin ++ rule ApiGitCommitAndPush)%string
  then route ApiGitCommitAndPush
  else if (url =? origin ++ rule ApiWorkflowCopilotCommitPush)%string
  then route ApiWorkflowCopilotCommitPush
  else with_status (jsonify [("error", JStr "Not Found")]) 404.

(** No comma in a string. *)
Fixpoint comma_free (s : string) : bool :=
  match s with
  | EmptyString => true
  | String c rest => negb (Ascii.eqb c ",") && comma_free rest
  end.

(** The commands a route runs when nothing stops it, in order. *)
Definition plan (endpoint : Endpoint) (data : Request) : list (list string) :=
  let assistant files :=
    CopilotExecutor.copilot_command (Py.str_of (prompt data)) files in
  let add := CopilotExecutor.git_add_command (files data) in
  let commit := ["git"; "commit"; "-m"; Py.str_of (commit_message data)] in
  let push := CopilotExecutor.git_push_command (branch data) "origin" in
  match endpoint with
  | ApiCopilotExecute =>
      [assistant
         (match files data with Some f => Some f | None => Some [] end);
       ["git"; "status"; "--porcelain"]]
  | ApiGitCommitAndPush => [add; commit; push]
  | ApiWorkflowCopilotCommitPush =>
      [assistant (files data); add; commit; push]
  end.

(** Every spawn of [log] ran in directory [dir]. *)
Fixpoint all_in_dir (dir : string) (log : list Event) : bool :=
  match log with
  | [] => true
  | SubprocessRun _ d :: rest => (d =? dir)%string && all_in_dir dir rest
  | PathExists _ :: rest => all_in_dir dir rest
  end.

(** * Properties *)

(** ** The process runner *)

Section ProcessRunner.

Variable w : World.
Variable repo_path : string.

(** [run_command] always returns a result dict, whatever [subprocess.run]
    did, and logs exactly one spawn. *)
Lemma run_command_returns (command : list string) (cwd : option string)
    (log : list Event) :
  CopilotExecutor.run_command w repo_path command cwd log =
    (Ok (CopilotExecutor.result_of_outcome
           (subprocess_run w log command
              (CopilotExecutor.cwd_or repo_path cwd) 300)),
     log ++ [SubprocessRun command (CopilotExecutor.cwd_or repo_path cwd)]).
Proof. reflexivity. Qed.

(** [result_at] reads back, from the log alone, the result [run_command]
    returned when it appended its spawn. *)
Lemma result_at_run_command (command : list string) (cwd : option string)
    (log : list Event) :
  option_map Ok
    (result_at w
       (snd (CopilotExecutor.run_command w repo_path command cwd log))
       (length log))
  = Some (fst (CopilotExecutor.run_command w repo_path command cwd log)).
Proof.
  rewrite run_command_returns. unfold result_at. cbn [fst snd].
  rewrite nth_error_app2, Nat.sub_diag by apply Nat.le_refl.
  cbn [nth_error option_map].
  rewrite firstn_app, Nat.sub_diag, firstn_all. cbn [firstn].
  rewrite app_nil_r. reflexivity.
Qed.

Lemma result_success_iff (o : ProcOutcome) :
  success (CopilotExecutor.result_of_outcome o) = true
  <-> returncode (CopilotExecutor.result_of_outcome o) = 0.
Proof.
  destruct o as [rc out err| |msg]; simpl.
  - apply Z.eqb_eq.
  - split; [discriminate | lia].
  - split; [discriminate | lia].
Qed.

(** C2: the result of [run_command] has [success] true exactly when its
    [returncode] is 0; the [returncode] is the exit code of a process that
    completed and -1 (so [success] false) on a timeout or a launch
    failure. *)
Theorem run_command_success_iff_exit_zero (command : list string)
    (cwd : option string) (log : list Event) :
  exists r : CommandResult,
    fst (CopilotExecutor.run_command w repo_path command cwd log) = Ok r
    /\ (success r = true <-> returncode r = 0)
    /\ match subprocess_run w log command
               (CopilotExecutor.cwd_or repo_path cwd) 300 with
       | Completed rc _ _ =>
           returncode r = rc /\ (success r = true <-> rc = 0)
       | TimeoutExpired | LaunchError _ =>
           returncode r = -1 /\ success r = false
       end.
Proof.
  rewrite run_command_returns.
  eexists; split; [reflexivity|].
  split; [apply result_success_iff|].
  destruct (subprocess_run w log command _ 300); simpl.
  - split; [reflexivity | apply Z.eqb_eq].
  - split; reflexivity.
  - split; reflexivity.
Qed.

(** C5: when [subprocess.run] raises [TimeoutExpired], [run_command]
    returns (it does not raise) a result with [success] false,
    [returncode] -1 and the non-empty [stderr]
    "Command timed out after 5 minutes". *)
Theorem run_command_timeout (command : list string) (cwd : option string)
    (log : list Event) :
  subprocess_run w log command (CopilotExecutor.cwd_or repo_path cwd) 300
    = TimeoutExpired ->
  exists r : CommandResult,
    fst (CopilotExecutor.run_command w repo_path command cwd log) = Ok r
    /\ success r = false
    /\ returncode r = -1
    /\ stderr r <> ""%string
    /\ stderr r = ("Command timed out after " ++ "5 minutes")%string.
Proof.
  intros Htimeout. rewrite run_command_returns, Htimeout.
  eexists; split; [reflexivity|]. simpl.
  repeat split; discriminate.
Qed.

(** C6: when [subprocess.run] raises any other exception, with message
    [msg], [run_command] still returns: the result has [success] false,
    empty [stdout], [stderr] equal to [msg] and [returncode] -1. *)
Theorem run_command_launch_failure (command : list string)
    (cwd : option string) (log : list Event) (msg : string) :
  subprocess_run w log command (CopilotExecutor.cwd_or repo_path cwd) 300
    = LaunchError msg ->
  CopilotExecutor.run_command w repo_path command cwd log =
    (Ok {| success := false; stdout := ""; stderr := msg;
           returncode := -1 |},
     log ++ [SubprocessRun command (CopilotExecutor.cwd_or repo_path cwd)]).
Proof.
  intros Hfail. rewrite run_command_returns, Hfail. reflexivity.
Qed.

End ProcessRunner.

Lemma run_command_timeout_witness :
  exists r : CommandResult,
    fst (CopilotExecutor.run_command
           (scripted_world demo_paths (always TimeoutExpired) "T")
           "/var/repos/demo" ["git"; "push"; "origin"] None []) = Ok r
    /\ success r = false
    /\ returncode r = -1
    /\ stderr r <> ""%string
    /\ stderr r = ("Command timed out after " ++ "5 minutes")%string.
Proof.
  apply (run_command_timeout
           (scripted_world demo_paths (always TimeoutExpired) "T")).
  reflexivity.
Defined.

Lemma run_command_launch_failure_witness :
  CopilotExecutor.run_command
    (scripted_world demo_paths
       (always (LaunchError "[Errno 2] No such file or directory: 'gh'"))
       "T")
    "/var/repos/demo" ["gh"; "copilot"; "suggest"; "hi"] None [] =
    (Ok {| success := false; stdout := "";
           stderr := "[Errno 2] No such file or directory: 'gh'";
           returncode := -1 |},
     [SubprocessRun ["gh"; "copilot"; "suggest"; "hi"] "/var/repos/demo"]).
Proof.
  apply (run_command_launch_failure
           (scripted_world demo_paths
              (always
                 (LaunchError "[Errno 2] No such file or directory: 'gh'"))
              "T")
           "/var/repos/demo" ["gh"; "copilot"; "suggest"; "hi"] None []).
  reflexivity.
Defined.

(** ** Repository validation *)

Section RepositoryValidation.

Variable REPOS_BASE_PATH : string.
Variable ALLOWED_REPOS : list string.
Variable w : World.

Lemma validate_repo_run (repo_path : string) :
  CopilotExecutor.validate_repo w repo_path [] =
    if os_path_exists w [] repo_path then
      if os_path_exists w [PathExists repo_path]
           (Py.path_join repo_path ".git")
      then (Ok tt,
            [PathExists repo_path;
             PathExists (Py.path_join repo_path ".git")])
      else (Raise (ValueError ("Not a git repository: " ++ repo_path)),
            [PathExists repo_path;
             PathExists (Py.path_join repo_path ".git")])
    else (Raise (ValueError
                   ("Repository path does not exist: " ++ repo_path)),
          [PathExists repo_path]).
Proof.
  unfold CopilotExecutor.validate_repo, bind, path_exists, raise, ret.
  simpl. destruct (os_path_exists w [] repo_path); simpl; [|reflexivity].
  destruct (os_path_exists w [PathExists repo_path]
              (Py.path_join repo_path ".git")); reflexivity.
Qed.

(** A failed repository validation ends the request: the route answers
    with the exception's message and touches nothing after the probes. *)
Lemma validate_repo_failure_ends_request (endpoint : Endpoint)
    (data : Request) (e : Exn) (log : list Event) :
  status (fst (dispatch REPOS_BASE_PATH ALLOWED_REPOS w endpoint data []))
    <> 400 ->
  CopilotExecutor.validate_repo w
    (Py.path_join REPOS_BASE_PATH (Py.str_of (repo_name data))) [] =
    (Raise e, log) ->
  dispatch REPOS_BASE_PATH ALLOWED_REPOS w endpoint data [] =
    (internal_error e, log).
Proof.
  intros Hstatus Hval.
  destruct endpoint; simpl in *;
    unfold execute_copilot, commit_and_push, copilot_commit_push_workflow,
      try_except in *;
    destruct (validate_request ALLOWED_REPOS data) as [[|] msg];
    simpl in *; try congruence;
    destruct (Py.truthy_opt (prompt data)); simpl in *; try congruence;
    try (destruct (Py.truthy_opt (commit_message data)); simpl in *;
         try congruence);
    unfold bind in *; rewrite Hval in *; reflexivity.
Qed.

(** C7: [validate_repo] probes the repository path first and its [.git]
    directory second (and only when the path exists); a missing path and a
    missing [.git] raise different messages; and on every route a failed
    validation is answered with status 500 and that message, the log of
    the request holding the probes and no spawn. *)
Theorem validate_repo_path_then_git_no_spawn (repo_path : string) :
  (os_path_exists w [] repo_path = false ->
   CopilotExecutor.validate_repo w repo_path [] =
     (Raise (ValueError ("Repository path does not exist: " ++ repo_path)),
      [PathExists repo_path]))
  /\ (os_path_exists w [] repo_path = true ->
      os_path_exists w [PathExists repo_path]
        (Py.path_join repo_path ".git") = false ->
      CopilotExecutor.validate_repo w repo_path [] =
        (Raise (ValueError ("Not a git repository: " ++ repo_path)),
         [PathExists repo_path;
          PathExists (Py.path_join repo_path ".git")]))
  /\ ("Repository path does not exist: " ++ repo_path)%string
     <> ("Not a git repository: " ++ repo_path)%string
  /\ (forall (endpoint : Endpoint) (data : Request) (e : Exn)
        (log : list Event),
         Py.path_join REPOS_BASE_PATH (Py.str_of (repo_name data))
           = repo_path ->
         status
           (fst (dispatch REPOS_BASE_PATH ALLOWED_REPOS w endpoint data []))
           <> 400 ->
         CopilotExecutor.validate_repo w repo_path [] = (Raise e, log) ->
         dispatch REPOS_BASE_PATH ALLOWED_REPOS w endpoint data [] =
           ({| body := JObj [("error", JStr (str_exn e))]; status := 500 |},
            log)
         /\ spawned log = []
         /\ probed log <> []).
Proof.
  split; [|split; [|split; [|]]].
  - intros Hpath. rewrite validate_repo_run, Hpath. reflexivity.
  - intros Hpath Hgit. rewrite validate_repo_run, Hpath, Hgit. reflexivity.
  - simpl. discriminate.
  - intros endpoint data e log Hresolved Hstatus Hraise. subst repo_path.
    split; [now apply validate_repo_failure_ends_request|].
    rewrite validate_repo_run in Hraise.
    destruct (os_path_exists w [] _);
      [destruct (os_path_exists w [PathExists _] _)|];
      inversion Hraise; split; [reflexivity | discriminate
                               | reflexivity | discriminate].
Qed.

End RepositoryValidation.

(** ** Request validation and the allow-list *)

(** [split] never returns the empty list, and joining its segments with
    the separator gives the string back: the segments are the pieces
    between the commas, untouched. *)
Lemma split_not_nil (sep : ascii) (s : string) : Py.split sep s <> [].
Proof.
  destruct s as [|c rest]; simpl; [discriminate|].
  destruct (Ascii.eqb c sep); [discriminate|].
  destruct (Py.split sep rest); discriminate.
Qed.

Lemma join_split (sep : ascii) (s : string) :
  Py.join (String sep EmptyString) (Py.split sep s) = s.
Proof.
  unfold Py.join.
  induction s as [|c rest IH]; simpl; [reflexivity|].
  pose proof (split_not_nil sep rest) as Hne.
  destruct (Ascii.eqb_spec c sep) as [-> | Hc];
    destruct (Py.split sep rest) as [|seg segs]; try contradiction.
  - change (String sep (String.concat (String sep "") (seg :: segs))
            = String sep rest).
    now rewrite IH.
  - destruct segs as [|seg' segs].
    + simpl in *. now rewrite IH.
    + change (String c (String.concat (String sep "") (seg :: seg' :: segs))
              = String c rest).
      now rewrite IH.
Qed.

Lemma contains_In (x : string) (l : list string) :
  Py.contains x l = true <-> In x l.
Proof.
  unfold Py.contains. rewrite existsb_exists. split.
  - intros [y [Hin Heq]]. apply String.eqb_eq in Heq. now subst y.
  - intros Hin. exists x. split; [assumption | apply String.eqb_refl].
Qed.

Lemma contains_not_In (x : string) (l : list string) :
  Py.contains x l = false <-> ~ In x l.
Proof.
  rewrite <- contains_In. destruct (Py.contains x l); split; congruence.
Qed.

Section AllowList.

Variable ALLOWED_REPOS : list string.

(** With the allow-list in force, a present repo_name passes validation
    exactly when it is non-empty and a member of the list. *)
Lemma validate_request_allowed (data : Request) (name : string) :
  whitelist_configured ALLOWED_REPOS = true ->
  repo_name data = Some name ->
  validate_request ALLOWED_REPOS data = (true, None)
  <-> name <> ""%string /\ In name ALLOWED_REPOS.
Proof.
  intros Hconf Hname. unfold validate_request.
  rewrite Hname, Hconf. simpl. unfold Py.truthy.
  destruct (String.eqb_spec name "") as [Hempty | Hnonempty]; simpl.
  - split; [discriminate | intros [Hne _]; contradiction].
  - destruct (Py.contains name ALLOWED_REPOS) eqn:Hin; simpl.
    + apply contains_In in Hin. split; [now split | reflexivity].
    + apply contains_not_In in Hin.
      split; [discriminate | intros [_ Hmem]; contradiction].
Qed.

Lemma validate_request_rejects (data : Request) (name : string) :
  whitelist_configured ALLOWED_REPOS = true ->
  repo_name data = Some name ->
  ~ In name ALLOWED_REPOS ->
  validate_request ALLOWED_REPOS data =
    (false,
     Some (if Py.truthy name
           then ("Repository " ++ name ++ " is not allowed")%string
           else "repo_name is required")).
Proof.
  intros Hconf Hname Hout. apply contains_not_In in Hout.
  unfold validate_request. rewrite Hname, Hconf. simpl. rewrite Hout.
  destruct (Py.truthy name); reflexivity.
Qed.

(** C8, amended: with the allow-list in force, that is when its first
    segment is non-empty ([ALLOWED_REPOS and ALLOWED_REPOS[0]] holds), a
    request whose repo_name is not a member of the list is answered, on every route, with status 400; the answer is fixed by the
    name alone, whatever the base path and the world, and the log of the
    request is empty: no path was probed and no process spawned. *)
Theorem disallowed_repo_rejected_before_any_effect
    (REPOS_BASE_PATH : string) (w : World) (endpoint : Endpoint)
    (data : Request) (name : string) :
  whitelist_configured ALLOWED_REPOS = true ->
  repo_name data = Some name ->
  ~ In name ALLOWED_REPOS ->
  dispatch REPOS_BASE_PATH ALLOWED_REPOS w endpoint data [] =
    ({| body :=
          JObj [("error",
                 JStr (if Py.truthy name
                       then ("Repository " ++ name ++ " is not allowed")%string
                       else "repo_name is required"))];
        status := 400 |},
     []).
Proof.
  intros Hconf Hname Hout.
  pose proof (validate_request_rejects data name Hconf Hname Hout) as Hrej.
  destruct endpoint; simpl;
    unfold execute_copilot, commit_and_push, copilot_commit_push_workflow,
      try_except;
    rewrite Hrej; reflexivity.
Qed.

End AllowList.

Lemma disallowed_repo_rejected_witness :
  dispatch "/var/repos" ["alpha"]
    (scripted_world demo_paths all_succeed "T") ApiGitCommitAndPush
    {| repo_name := Some "beta"; prompt := None;
       commit_message := Some "fix"; branch := None; files := None |} [] =
    ({| body := JObj [("error", JStr "Repository beta is not allowed")];
        status := 400 |},
     []).
Proof.
  apply (disallowed_repo_rejected_before_any_effect ["alpha"] "/var/repos"
           (scripted_world demo_paths all_succeed "T") ApiGitCommitAndPush
           {| repo_name := Some "beta"; prompt := None;
              commit_message := Some "fix"; branch := None; files := None |}
           "beta").
  - reflexivity.
  - reflexivity.
  - simpl. intros [H | []]. discriminate H.
Defined.

(** C10, as stated, fails: with the allow-list "alpha," the list is in
    force and the empty string is one of its segments, yet an empty
    repo_name is rejected as missing. *)
Lemma empty_segment_does_not_admit_empty_name :
  whitelist_configured (allowed_repos_of_env "alpha,") = true
  /\ In ""%string (allowed_repos_of_env "alpha,")
  /\ validate_request (allowed_repos_of_env "alpha,") (request_for "")
     = (false, Some "repo_name is required").
Proof.
  repeat split. simpl. right. left. reflexivity.
Qed.

(** C10, amended: with the allow-list in force, validation accepts a
    repo_name exactly when it is non-empty and equal, character for
    character, to one of the comma-separated segments of the allow-list
    string; nothing is trimmed: "alpha, beta" accepts " beta" and rejects
    "beta". *)
Theorem allow_list_exact_segment_match :
  (forall (value : string) (data : Request) (name : string),
      whitelist_configured (allowed_repos_of_env value) = true ->
      repo_name data = Some name ->
      validate_request (allowed_repos_of_env value) data = (true, None)
      <-> name <> ""%string /\ In name (Py.split "," value))
  /\ validate_request (allowed_repos_of_env "alpha, beta")
       (request_for " beta") = (true, None)
  /\ validate_request (allowed_repos_of_env "alpha, beta")
       (request_for "beta")
     = (false, Some "Repository beta is not allowed").
Proof.
  split; [|split; reflexivity].
  intros value data name Hconf Hname.
  now apply validate_request_allowed.
Qed.

(** ** The workflows *)

Lemma step_of_copilot_command (prompt : string)
    (files : option (list string)) :
  step_of (CopilotExecutor.copilot_command prompt files) = Some Generate.
Proof.
  unfold CopilotExecutor.copilot_command.
  destruct (Py.truthy_list files); reflexivity.
Qed.

Lemma step_of_git_add_command (files : option (list string)) :
  step_of (CopilotExecutor.git_add_command files) = Some Add.
Proof.
  unfold CopilotExecutor.git_add_command.
  destruct (Py.truthy_list files); reflexivity.
Qed.

Lemma step_of_git_push_command (branch : option string) (remote : string) :
  step_of (CopilotExecutor.git_push_command branch remote) = Some Push.
Proof.
  unfold CopilotExecutor.git_push_command.
  destruct (Py.truthy_opt branch); reflexivity.
Qed.

(** Symbolic execution of a route from the empty log: unfold the route and
    the monad, and branch wherever the source branches (request checks,
    the two probes, the [success] of each result). *)
Ltac eval_route :=
  cbv beta iota zeta delta
    [dispatch execute_copilot commit_and_push copilot_commit_push_workflow
     try_except bind ret raise path_exists now_isoformat
     CopilotExecutor.validate_repo CopilotExecutor.execute_copilot
     CopilotExecutor.git_add CopilotExecutor.git_commit
     CopilotExecutor.git_push CopilotExecutor.git_status
     CopilotExecutor.run_command CopilotExecutor.cwd_or app negb
     fst snd Py.setitem String.eqb Ascii.eqb Bool.eqb].

Ltac split_route :=
  eval_route;
  repeat (match goal with
    | |- context [validate_request ?a ?d] =>
        destruct (validate_request a d) as [[|] ?] eqn:?
    | |- context [if Py.truthy_opt ?x then _ else _] =>
        destruct (Py.truthy_opt x) eqn:?
    | |- context [if os_path_exists ?w ?l ?p then _ else _] =>
        destruct (os_path_exists w l p) eqn:?
    | |- context [if success ?r then _ else _] =>
        destruct (success r) eqn:?
    end; eval_route).

(** A log of a route has at most six events: case on the position. *)
Ltac at_position i :=
  unfold failed_at, result_at, step_at in *;
  do 7 (try destruct i as [|i]); cbn [nth_error firstn skipn] in *.

(** A result known to have succeeded cannot be the failed one. *)
Ltac not_the_failed H :=
  exfalso;
  match goal with
  | Hok : success ?r = true |- _ => rewrite Hok in H; discriminate H
  end.

Ltac step_names :=
  rewrite ?step_of_git_add_command, ?step_of_git_push_command,
    ?step_of_copilot_command.

Section Workflows.

Variable REPOS_BASE_PATH : string.
Variable ALLOWED_REPOS : list string.
Variable w : World.

(** C1: in commit-and-push and in the full workflow, a command whose result
    has [success] false is the last event of the request: nothing is
    spawned (or probed) after it.  In particular, after a failed [git add]
    no commit and no push was spawned, and after a failed assistant run no
    add, commit or push was spawned. *)
Theorem failed_step_ends_workflow (endpoint : Endpoint) (data : Request)
    (i : nat) :
  endpoint <> ApiCopilotExecute ->
  failed_at w
    (snd (dispatch REPOS_BASE_PATH ALLOWED_REPOS w endpoint data [])) i
    = true ->
  skipn (S i)
    (snd (dispatch REPOS_BASE_PATH ALLOWED_REPOS w endpoint data [])) = []
  /\ (step_at
        (snd (dispatch REPOS_BASE_PATH ALLOWED_REPOS w endpoint data [])) i
        = Some Add ->
      forall c : list string,
        In c (spawned
                (snd (dispatch REPOS_BASE_PATH ALLOWED_REPOS w endpoint
                        data []))) ->
        step_of c <> Some Commit /\ step_of c <> Some Push)
  /\ (step_at
        (snd (dispatch REPOS_BASE_PATH ALLOWED_REPOS w endpoint data [])) i
        = Some Generate ->
      forall c : list string,
        In c (spawned
                (snd (dispatch REPOS_BASE_PATH ALLOWED_REPOS w endpoint
                        data []))) ->
        step_of c <> Some Add /\ step_of c <> Some Commit
        /\ step_of c <> Some Push).
Proof.
  intros Hroute.
  destruct endpoint; [contradiction| |].
  all: split_route; intros Hfailed; at_position i;
    try discriminate Hfailed.
  all: try not_the_failed Hfailed.
  all: split; [reflexivity|].
  all: step_names; cbn [spawned In step_of].
  all: split; intros Hstep c Hin; try discriminate Hstep.
  all: repeat match goal with
         | H : _ \/ _ |- _ => destruct H as [H | H]
         | H : False |- _ => destruct H
         end;
       subst c; step_names; cbn; repeat split; discriminate.
Qed.

(** In commit-and-push no failure response has a [results] entry: the dict
    the route accumulates is never handed to [jsonify]. *)
Lemma commit_and_push_failure_has_no_results (data : Request) :
  status (fst (commit_and_push REPOS_BASE_PATH ALLOWED_REPOS w data []))
    <> 200 ->
  field "results"
    (body (fst (commit_and_push REPOS_BASE_PATH ALLOWED_REPOS w data [])))
    = None.
Proof.
  split_route; intros Hstatus; try reflexivity.
  contradiction Hstatus; reflexivity.
Qed.

(** C4, amended: in commit-and-push and in the full workflow a failed
    command is answered with status 500 and its captured stderr under
    [details]; on /api/copilot/execute a failed command is answered with
    status 200, and when it is the assistant run the body has [success]
    false and the captured stderr under [error]. *)
Theorem failed_command_response (endpoint : Endpoint) (data : Request)
    (i : nat) (r : CommandResult) :
  result_at w
    (snd (dispatch REPOS_BASE_PATH ALLOWED_REPOS w endpoint data [])) i
    = Some r ->
  success r = false ->
  match endpoint with
  | ApiCopilotExecute =>
      status (fst (dispatch REPOS_BASE_PATH ALLOWED_REPOS w endpoint data []))
        = 200
      /\ (step_at
            (snd (dispatch REPOS_BASE_PATH ALLOWED_REPOS w endpoint data []))
            i = Some Generate ->
          field "success"
            (body (fst (dispatch REPOS_BASE_PATH ALLOWED_REPOS w endpoint
                          data [])))
            = Some (JBool false)
          /\ field "error"
               (body (fst (dispatch REPOS_BASE_PATH ALLOWED_REPOS w endpoint
                             data [])))
             = Some (JStr (stderr r)))
  | ApiGitCommitAndPush | ApiWorkflowCopilotCommitPush =>
      status (fst (dispatch REPOS_BASE_PATH ALLOWED_REPOS w endpoint data []))
        = 500
      /\ field "details"
           (body (fst (dispatch REPOS_BASE_PATH ALLOWED_REPOS w endpoint
                         data [])))
         = Some (JStr (stderr r))
  end.
Proof.
  destruct endpoint.
  all: split_route; intros Hresult Hfailed; at_position i;
    try discriminate Hresult.
  all: injection Hresult as <-.
  all: try not_the_failed Hfailed.
  all: step_names.
  all: try (split; reflexivity).
  all: split; [reflexivity|]; intros Hstep; try discriminate Hstep.
  all: split; [cbn; do 2 f_equal; assumption | reflexivity].
Qed.


End Workflows.

(** ** Concrete runs *)

Lemma failed_step_ends_workflow_witness :
  let log :=
    snd (dispatch "/var/repos" [""] (demo_world add_fails)
           ApiGitCommitAndPush demo_request []) in
  skipn 3 log = []
  /\ (step_at log 2 = Some Add ->
      forall c : list string,
        In c (spawned log) ->
        step_of c <> Some Commit /\ step_of c <> Some Push)
  /\ (step_at log 2 = Some Generate ->
      forall c : list string,
        In c (spawned log) ->
        step_of c <> Some Add /\ step_of c <> Some Commit
        /\ step_of c <> Some Push).
Proof.
  apply (failed_step_ends_workflow "/var/repos" [""] (demo_world add_fails)
           ApiGitCommitAndPush demo_request 2).
  - discriminate.
  - reflexivity.
Defined.

(** C3 fails on commit-and-push: with [git add] succeeding and
    [git commit] exiting 1 with "nothing to commit", add and commit were
    run and push was not, and the 500 response holds [error] and [details]
    only; neither result is in it. *)
Theorem commit_failure_response_omits_results :
  let run :=
    commit_and_push "/var/repos" [""] (demo_world commit_fails)
      demo_request [] in
  map step_of (spawned (snd run)) = [Some Add; Some Commit]
  /\ map success (results_of (demo_world commit_fails) (snd run))
     = [true; false]
  /\ fst run =
       {| body := JObj [("error", JStr "Failed to commit");
                        ("details", JStr "nothing to commit")];
          status := 500 |}
  /\ field "results" (body (fst run)) = None.
Proof. repeat split. Qed.

(** The sibling route does carry them. *)
Example workflow_commit_failure_carries_results :
  workflow_keys
    (fst (copilot_commit_push_workflow "/var/repos" [""]
            (demo_world commit_fails) demo_request []))
  = ["copilot"; "add"; "commit"]%string.
Proof. reflexivity. Qed.

(** C4, as stated, fails: the assistant exits 2 on /api/copilot/execute and
    the response has status 200. *)
Lemma execute_failure_answered_200 :
  let run :=
    execute_copilot "/var/repos" [""] (demo_world copilot_fails)
      demo_request [] in
  step_at (snd run) 2 = Some Generate
  /\ failed_at (demo_world copilot_fails) (snd run) 2 = true
  /\ status (fst run) = 200
  /\ status (fst run) <> 500.
Proof. repeat split. discriminate. Qed.

Lemma failed_command_response_witness :
  let run :=
    dispatch "/var/repos" [""] (demo_world commit_fails)
      ApiGitCommitAndPush demo_request [] in
  status (fst run) = 500
  /\ field "details" (body (fst run)) = Some (JStr "nothing to commit").
Proof.
  apply (failed_command_response "/var/repos" [""]
           (demo_world commit_fails) ApiGitCommitAndPush demo_request 3
           {| success := false; stdout := "";
              stderr := "nothing to commit"; returncode := 1 |}).
  - reflexivity.
  - reflexivity.
Defined.

(** C8, as stated, fails: the allow-list ",alpha" is configured and names
    a repository, but its first segment is empty, so the membership test
    is skipped: the unlisted "demo" is accepted, its path probed and three
    commands run. *)
Lemma leading_comma_admits_unlisted_repo :
  let allowed := allowed_repos_of_env ",alpha" in
  let run :=
    dispatch "/var/repos" allowed (demo_world all_succeed)
      ApiGitCommitAndPush demo_request [] in
  allowed = [""; "alpha"]%string
  /\ ~ In "demo"%string allowed
  /\ status (fst run) = 200
  /\ probed (snd run) = ["/var/repos/demo"; "/var/repos/demo/.git"]%string
  /\ length (spawned (snd run)) = 3%nat.
Proof.
  repeat split. simpl. intros [H | [H | []]]; discriminate H.
Qed.



(** The two repository-validation failures, run. *)
Example missing_path_run :
  dispatch "/var/repos" [""] (scripted_world [] all_succeed "T")
    ApiCopilotExecute demo_request [] =
    ({| body :=
          JObj [("error",
                 JStr "Repository path does not exist: /var/repos/demo")];
        status := 500 |},
     [PathExists "/var/repos/demo"]).
Proof. reflexivity. Qed.

Example missing_git_dir_run :
  dispatch "/var/repos" [""]
    (scripted_world ["/var/repos/demo"] all_succeed "T")
    ApiCopilotExecute demo_request [] =
    ({| body :=
          JObj [("error", JStr "Not a git repository: /var/repos/demo")];
        status := 500 |},
     [PathExists "/var/repos/demo"; PathExists "/var/repos/demo/.git"]).
Proof. reflexivity. Qed.

(** The allow-list is in force only when its first segment is non-empty:
    an unset variable gives [['']], and so does a leading comma give an
    empty first segment. *)
Example unset_allow_list_allows_all :
  whitelist_configured (allowed_repos_of_env "") = false
  /\ validate_request (allowed_repos_of_env "") (request_for "beta")
     = (true, None).
Proof. split; reflexivity. Qed.

Example leading_comma_allows_all :
  whitelist_configured (allowed_repos_of_env ",alpha") = false
  /\ validate_request (allowed_repos_of_env ",alpha") (request_for "beta")
     = (true, None).
Proof. split; reflexivity. Qed.

(** The end-to-end success scenario: stage all, commit "fix", push to
    origin with no branch argument. *)
Example commit_and_push_success_run :
  spawned
    (snd (commit_and_push "/var/repos" [""] (demo_world all_succeed)
            demo_request []))
  = [["git"; "add"; "-A"];
     ["git"; "commit"; "-m"; "fix"];
     ["git"; "push"; "origin"]]%string.
Proof. reflexivity. Qed.

(** * Further properties of the server and of the client *)

Section RequestHandling.
Variable REPOS_BASE_PATH : string.
Variable ALLOWED_REPOS : list string.
Variable w : World.

(** X1: a route answers 400 exactly when [validate_request] rejects the
    request or a field the route requires ([prompt] on execute and on the
    full workflow, [commit_message] on commit-and-push and on the full
    workflow) is missing or empty; and a 400 is answered with an empty
    log: no path probed, no process spawned. *)
Theorem bad_request_touches_nothing (endpoint : Endpoint) (data : Request) :
  (status (fst (dispatch REPOS_BASE_PATH ALLOWED_REPOS w endpoint data []))
     = 400
   <-> fst (validate_request ALLOWED_REPOS data) = false
       \/ (endpoint <> ApiGitCommitAndPush
           /\ Py.truthy_opt (prompt data) = false)
       \/ (endpoint <> ApiCopilotExecute
           /\ Py.truthy_opt (commit_message data) = false))
  /\ (status (fst (dispatch REPOS_BASE_PATH ALLOWED_REPOS w endpoint data []))
        = 400 ->
      snd (dispatch REPOS_BASE_PATH ALLOWED_REPOS w endpoint data []) = []).
Proof.
  destruct endpoint; split_route; cbn [fst].
  all: split; [split|].
  all: try reflexivity.
  all: try discriminate.
  all: try (intros _; auto; fail).
  all: try (intros _; right; left; split; [discriminate | reflexivity]).
  all: try (intros _; right; right; split; [discriminate | reflexivity]).
  all: try (intros [H | [[H1 H2] | [H1 H2]]]; congruence).
  all: try (destruct e; cbn; discriminate).
Qed.

(** X2: a request that spawns anything first probed the repository path
    and then its [.git], both of which existed, probed nothing else
    afterwards, and ran every command in the repository path. *)
Theorem commands_run_in_validated_repo (endpoint : Endpoint)
    (data : Request) :
  spawned (snd (dispatch REPOS_BASE_PATH ALLOWED_REPOS w endpoint data []))
    <> [] ->
  exists rest : list Event,
    snd (dispatch REPOS_BASE_PATH ALLOWED_REPOS w endpoint data []) =
      PathExists (Py.path_join REPOS_BASE_PATH (Py.str_of (repo_name data)))
      :: PathExists
           (Py.path_join
              (Py.path_join REPOS_BASE_PATH (Py.str_of (repo_name data)))
              ".git")
      :: rest
    /\ os_path_exists w []
         (Py.path_join REPOS_BASE_PATH (Py.str_of (repo_name data))) = true
    /\ os_path_exists w
         [PathExists
            (Py.path_join REPOS_BASE_PATH (Py.str_of (repo_name data)))]
         (Py.path_join
            (Py.path_join REPOS_BASE_PATH (Py.str_of (repo_name data)))
            ".git") = true
    /\ probed rest = []
    /\ all_in_dir
         (Py.path_join REPOS_BASE_PATH (Py.str_of (repo_name data))) rest
       = true.
Proof.
  destruct endpoint; split_route; intros Hspawned;
    try (exfalso; apply Hspawned; reflexivity).
  all: eexists; split; [reflexivity|].
  all: repeat split; try assumption.
  all: cbn [all_in_dir]; rewrite !String.eqb_refl; reflexivity.
Qed.

(** X3: the commands a request runs are an initial segment of the route's
    plan (assistant then status; add, commit, push; assistant, add, commit,
    push), built from the request's own prompt, message, branch and files;
    on the two multi-step routes every command but the last one run
    succeeded. *)
Theorem commands_follow_plan (endpoint : Endpoint) (data : Request) :
  exists n : nat,
    spawned (snd (dispatch REPOS_BASE_PATH ALLOWED_REPOS w endpoint data []))
      = firstn n (plan endpoint data)
    /\ (endpoint <> ApiCopilotExecute ->
        forallb success
          (removelast
             (results_of w
                (snd (dispatch REPOS_BASE_PATH ALLOWED_REPOS w endpoint
                        data [])))) = true).
Proof.
  destruct endpoint; split_route; cbn [spawned].
  all: match goal with
       | |- exists n, ?l = _ /\ _ => exists (length l)
       end.
  all: split; [reflexivity|]; intros Hroute; try contradiction.
  all: cbv [results_of results_after app]; cbn [removelast forallb].
  all: repeat match goal with
         | H : success _ = true |- _ => rewrite H
         end; reflexivity.
Qed.

(** X4: for a request that passes the request checks ([validate_request]
    accepts it and its prompt is non-empty) and whose repository validates,
    /api/copilot/execute runs the assistant and then
    [git status --porcelain], whatever the assistant returned, and answers
    200 with the assistant's [success], [stdout] and [stderr] and the
    [stdout] of the status command; a failed status command changes
    nothing else. *)
Theorem execute_always_reports_git_status (data : Request) :
  fst (validate_request ALLOWED_REPOS data) = true ->
  Py.truthy_opt (prompt data) = true ->
  fst (CopilotExecutor.validate_repo w
         (Py.path_join REPOS_BASE_PATH (Py.str_of (repo_name data))) [])
    = Ok tt ->
  exists r st : CommandResult,
    results_of w
      (snd (execute_copilot REPOS_BASE_PATH ALLOWED_REPOS w data []))
      = [r; st]
    /\ map step_of
         (spawned
            (snd (execute_copilot REPOS_BASE_PATH ALLOWED_REPOS w data [])))
       = [Some Generate; Some Status]
    /\ fst (execute_copilot REPOS_BASE_PATH ALLOWED_REPOS w data []) =
         {| body :=
              JObj [("success", JBool (success r));
                    ("output", JStr (stdout r));
                    ("error", JStr (stderr r));
                    ("git_status", JStr (stdout st));
                    ("timestamp",
                     JStr (datetime_now w
                             (snd (execute_copilot REPOS_BASE_PATH
                                     ALLOWED_REPOS w data []))))];
            status := 200 |}.
Proof.
  split_route; cbn [fst]; intros Hvalid Hprompt Hrepo;
    try discriminate Hvalid; try discriminate Hprompt;
    try discriminate Hrepo.
  do 2 eexists. split; [reflexivity|].
  split; [cbn [spawned map]; step_names; reflexivity | reflexivity].
Qed.

(** X5: commit-and-push answers 200 exactly when it ran three commands and
    all three succeeded; the body then holds [success] true and, under
    [results], the [stdout] of add, commit and push (their [stderr] is
    dropped). *)
Theorem commit_and_push_succeeds_iff (data : Request) :
  (status (fst (commit_and_push REPOS_BASE_PATH ALLOWED_REPOS w data []))
     = 200
   <-> map success
         (results_of w
            (snd (commit_and_push REPOS_BASE_PATH ALLOWED_REPOS w data [])))
       = [true; true; true])
  /\ (status (fst (commit_and_push REPOS_BASE_PATH ALLOWED_REPOS w data []))
        = 200 ->
      exists a c p : CommandResult,
        results_of w
          (snd (commit_and_push REPOS_BASE_PATH ALLOWED_REPOS w data []))
          = [a; c; p]
        /\ body
             (fst (commit_and_push REPOS_BASE_PATH ALLOWED_REPOS w data []))
           = JObj [("success", JBool true);
                   ("message",
                    JStr "Changes committed and pushed successfully");
                   ("results",
                    JObj [("add", JStr (stdout a));
                          ("commit", JStr (stdout c));
                          ("push", JStr (stdout p))]);
                   ("timestamp",
                    JStr (datetime_now w
                            (snd (commit_and_push REPOS_BASE_PATH
                                    ALLOWED_REPOS w data []))))]).
Proof.
  split_route; cbv [results_of results_after app]; cbn [map fst snd].
  all: repeat match goal with
         | H : success _ = _ |- _ => rewrite H
         end.
  all: split; [split; intros H; try discriminate H; try reflexivity|].
  all: intros Hok; try discriminate Hok.
  do 3 eexists. split; reflexivity.
Qed.

End RequestHandling.

(** [git_checkout_branch] spawns one command, [git checkout ...]. *)
Lemma step_of_checkout (w : World) (repo_path branch : string)
    (create : bool) (c : list string) :
  In c (spawned
          (snd (CopilotExecutor.git_checkout_branch w repo_path branch
                  create []))) ->
  step_of c = None.
Proof.
  unfold CopilotExecutor.git_checkout_branch, CopilotExecutor.run_command.
  destruct create; cbn; intros [<- | []]; reflexivity.
Qed.

Section CommandsOfARoute.
Variable REPOS_BASE_PATH : string.
Variable ALLOWED_REPOS : list string.
Variable w : World.

(** X6: execute only ever spawns the assistant and [git status];
    commit-and-push only [git add], [git commit], [git push]; the full
    workflow only the assistant and those three; and no route spawns the
    command of [git_checkout_branch]. *)
Theorem routes_never_checkout (endpoint : Endpoint) (data : Request)
    (c : list string) :
  In c (spawned
          (snd (dispatch REPOS_BASE_PATH ALLOWED_REPOS w endpoint data []))) ->
  (match endpoint with
   | ApiCopilotExecute =>
       step_of c = Some Generate \/ step_of c = Some Status
   | ApiGitCommitAndPush =>
       step_of c = Some Add \/ step_of c = Some Commit
       \/ step_of c = Some Push
   | ApiWorkflowCopilotCommitPush =>
       step_of c = Some Generate \/ step_of c = Some Add
       \/ step_of c = Some Commit \/ step_of c = Some Push
   end)
  /\ forall (w' : World) (repo_path branch : string) (create : bool),
       ~ In c (spawned
                 (snd (CopilotExecutor.git_checkout_branch w' repo_path
                         branch create []))).
Proof.
  intros Hin.
  assert (Hstep :
    match endpoint with
    | ApiCopilotExecute =>
        step_of c = Some Generate \/ step_of c = Some Status
    | ApiGitCommitAndPush =>
        step_of c = Some Add \/ step_of c = Some Commit
        \/ step_of c = Some Push
    | ApiWorkflowCopilotCommitPush =>
        step_of c = Some Generate \/ step_of c = Some Add
        \/ step_of c = Some Commit \/ step_of c = Some Push
    end).
  { revert Hin. destruct endpoint; split_route; cbn [spawned In];
      intros Hin;
      repeat match goal with
        | H : _ \/ _ |- _ => destruct H as [H | H]
        | H : False |- _ => destruct H
        end; subst c; step_names; cbn; tauto. }
  split; [exact Hstep|].
  intros w' repo_path branch create Hcheckout.
  apply step_of_checkout in Hcheckout.
  destruct endpoint; rewrite Hcheckout in Hstep;
    repeat match goal with
      | H : _ \/ _ |- _ => destruct H as [H | H]
      end; discriminate.
Qed.

(** Dropping an empty [branch] and an empty [files] list from a request
    changes nothing. *)
Lemma dispatch_without_empty (endpoint : Endpoint) (data : Request) :
  dispatch REPOS_BASE_PATH ALLOWED_REPOS w endpoint (without_empty data) []
  = dispatch REPOS_BASE_PATH ALLOWED_REPOS w endpoint data [].
Proof.
  destruct data as [name p msg b f]. unfold without_empty.
  cbn [repo_name prompt commit_message branch files].
  destruct b as [b|]; [destruct (String.eqb_spec b "") as [-> | Hb]|];
    destruct f as [[|f0 fs]|]; cbn [Py.truthy_opt Py.truthy_list];
    try reflexivity.
  all: try (unfold Py.truthy; apply String.eqb_neq in Hb; rewrite Hb;
            cbn [negb]).
  all: try reflexivity.
  all: destruct endpoint; reflexivity.
Qed.

(** X7: on every route, a request with [branch] empty or [files] an empty
    list gets the same response, through the same probes and commands, as
    the request without those keys. *)
Theorem empty_optionals_are_ignored (endpoint : Endpoint) (data : Request) :
  dispatch REPOS_BASE_PATH ALLOWED_REPOS w endpoint (without_empty data) []
  = dispatch REPOS_BASE_PATH ALLOWED_REPOS w endpoint data [].
Proof. apply dispatch_without_empty. Qed.

End CommandsOfARoute.

Lemma app_empty_r (s : string) : (s ++ "")%string = s.
Proof. induction s as [|c s IH]; simpl; [reflexivity | now rewrite IH]. Qed.

(** Splitting at commas leaves a comma-free prefix on the first segment. *)
Lemma split_comma_free_app (s t : string) :
  comma_free s = true ->
  Py.split "," (s ++ t) =
    match Py.split "," t with
    | seg :: segs => (s ++ seg)%string :: segs
    | [] => [s]
    end.
Proof.
  induction s as [|c s IH]; intros Hfree.
  - simpl. destruct (Py.split "," t) eqn:E; [|reflexivity].
    now apply split_not_nil in E.
  - simpl in Hfree. apply andb_prop in Hfree as [Hc Hs].
    apply negb_true_iff in Hc.
    change (Py.split "," (String c (s ++ t))
            = match Py.split "," t with
              | seg :: segs => String c (s ++ seg) :: segs
              | [] => [String c s]
              end).
    cbn [Py.split]. rewrite Hc, (IH Hs).
    destruct (Py.split "," t) eqn:E; [|reflexivity].
    now apply split_not_nil in E.
Qed.

Lemma split_join_comma_free (parts : list string) :
  parts <> [] ->
  forallb comma_free parts = true ->
  Py.split "," (Py.join "," parts) = parts.
Proof.
  unfold Py.join.
  induction parts as [|p rest IH]; intros Hne Hfree; [contradiction|].
  cbn [forallb] in Hfree. apply andb_prop in Hfree as [Hp Hrest].
  destruct rest as [|q rest].
  - cbn [String.concat]. rewrite <- (app_empty_r p) at 1.
    rewrite (split_comma_free_app p "" Hp). cbn. now rewrite app_empty_r.
  - change (String.concat "," (p :: q :: rest))
      with (p ++ String "," (String.concat "," (q :: rest)))%string.
    rewrite (split_comma_free_app _ _ Hp).
    cbn [Py.split]. cbn [Ascii.eqb Bool.eqb].
    rewrite IH by (assumption || discriminate).
    now rewrite app_empty_r.
Qed.

(** X8: for a non-empty list of files none of which contains a comma, the
    assistant command is [gh copilot suggest --files <flag> <prompt>], and
    splitting [<flag>] at its commas gives the list back. *)
Theorem files_flag_round_trip (prompt : string) (files : list string) :
  files <> [] ->
  forallb comma_free files = true ->
  exists flag : string,
    CopilotExecutor.copilot_command prompt (Some files)
      = ["gh"; "copilot"; "suggest"; "--files"; flag; prompt]
    /\ Py.split "," flag = files.
Proof.
  intros Hne Hfree. exists (Py.join "," files). split.
  - destruct files; [contradiction | reflexivity].
  - now apply split_join_comma_free.
Qed.

Lemma files_flag_round_trip_witness :
  exists flag : string,
    CopilotExecutor.copilot_command "Add tests"
      (Some ["src/api.py"; "src/auth.py"])
      = ["gh"; "copilot"; "suggest"; "--files"; flag; "Add tests"]
    /\ Py.split "," flag = ["src/api.py"; "src/auth.py"].
Proof.
  apply (files_flag_round_trip "Add tests" ["src/api.py"; "src/auth.py"]).
  - discriminate.
  - reflexivity.
Defined.

(** X9: a repo_name that begins with "/" resolves to itself: the request
    is served identically whatever [REPOS_BASE_PATH] is. *)
Theorem absolute_repo_name_ignores_base (base base' : string)
    (ALLOWED_REPOS : list string) (w : World) (endpoint : Endpoint)
    (data : Request) (name : string) :
  repo_name data = Some name ->
  Py.startswith_sep name = true ->
  Py.path_join base name = name
  /\ dispatch base ALLOWED_REPOS w endpoint data []
     = dispatch base' ALLOWED_REPOS w endpoint data [].
Proof.
  intros Hname Habs.
  assert (Hjoin : forall b, Py.path_join b (Py.str_of (repo_name data))
                            = name).
  { intros b. rewrite Hname. unfold Py.path_join. cbn [Py.str_of].
    now rewrite Habs. }
  split; [rewrite <- (Hjoin base) at 2; now rewrite Hname|].
  destruct endpoint; cbn [dispatch];
    unfold execute_copilot, commit_and_push, copilot_commit_push_workflow;
    rewrite !Hjoin; reflexivity.
Qed.

(** X10: the allow-list is in force exactly when the [ALLOWED_REPOS] value
    starts with a character other than a comma; when it is not in force,
    [validate_request] accepts exactly the requests with a non-empty
    repo_name. *)
Theorem allow_list_in_force_iff :
  (forall value : string,
      whitelist_configured (allowed_repos_of_env value) = true
      <-> exists (c : ascii) (rest : string),
            value = String c rest /\ c <> ","%char)
  /\ (forall (value : string) (data : Request),
        whitelist_configured (allowed_repos_of_env value) = false ->
        validate_request (allowed_repos_of_env value) data = (true, None)
        <-> Py.truthy_opt (repo_name data) = true).
Proof.
  split.
  - intros value. unfold allowed_repos_of_env, whitelist_configured.
    destruct value as [|c rest]; cbn [Py.split].
    + split; [discriminate | intros (c & rest & Heq & _); discriminate].
    + destruct (Ascii.eqb_spec c ",") as [-> | Hc].
      * split; [discriminate|].
        intros (c & rest' & Heq & Hne). injection Heq as <- _.
        contradiction.
      * destruct (Py.split "," rest); cbn; split; try reflexivity;
          intros _; exists c, rest; now split.
  - intros value data Hoff. unfold validate_request. rewrite Hoff.
    destruct (Py.truthy_opt (repo_name data)); cbn;
      split; congruence.
Qed.

(** A rejection always comes with a message. *)
Lemma validate_request_message (allowed : list string) (data : Request)
    (o : option string) :
  validate_request allowed data = (false, o) -> exists msg, o = Some msg.
Proof.
  unfold validate_request.
  destruct (negb (Py.truthy_opt (repo_name data)));
    [|destruct (whitelist_configured allowed && _)];
    intros H; inversion H; eauto.
Qed.

Section ResponseShape.
Variable REPOS_BASE_PATH : string.
Variable ALLOWED_REPOS : list string.
Variable w : World.

(** X11: every response of the three routes has status 200, 400 or 500; a
    200 body has a boolean [success] and a [timestamp]; a 400 or 500 body
    has a string [error] and no [success]. *)
Theorem response_status_and_shape (endpoint : Endpoint) (data : Request) :
  (status (fst (dispatch REPOS_BASE_PATH ALLOWED_REPOS w endpoint data []))
     = 200
   /\ exists (b : bool) (ts : string),
        field "success"
          (body (fst (dispatch REPOS_BASE_PATH ALLOWED_REPOS w endpoint
                        data []))) = Some (JBool b)
        /\ field "timestamp"
             (body (fst (dispatch REPOS_BASE_PATH ALLOWED_REPOS w endpoint
                           data []))) = Some (JStr ts))
  \/ ((status (fst (dispatch REPOS_BASE_PATH ALLOWED_REPOS w endpoint
                      data [])) = 400
       \/ status (fst (dispatch REPOS_BASE_PATH ALLOWED_REPOS w endpoint
                         data [])) = 500)
      /\ field "success"
           (body (fst (dispatch REPOS_BASE_PATH ALLOWED_REPOS w endpoint
                         data []))) = None
      /\ exists msg : string,
           field "error"
             (body (fst (dispatch REPOS_BASE_PATH ALLOWED_REPOS w endpoint
                           data []))) = Some (JStr msg)).
Proof.
  destruct endpoint; split_route; cbn [fst].
  all: try (left; split; [reflexivity|]; do 2 eexists; split; reflexivity).
  all: right.
  all: try match goal with
         | H : validate_request _ _ = (false, ?o) |- _ =>
             destruct (validate_request_message _ _ _ H) as [msg ->]
         end.
  all: split; [first [left; reflexivity | right; reflexivity]|].
  all: split; [reflexivity|]; eexists; reflexivity.
Qed.
End ResponseShape.

Lemma endswith_sep_cons (c : ascii) (s : string) :
  s <> ""%string -> Py.endswith_sep (String c s) = Py.endswith_sep s.
Proof. destruct s; [contradiction | reflexivity]. Qed.

(** X12: the client's [base_url] is its argument with the trailing slashes
    removed, all of them and nothing else. *)
Theorem base_url_drops_trailing_slashes (argument : string) :
  exists n : nat,
    argument = (CopilotAPIClient.base_url argument ++ slashes n)%string
    /\ Py.endswith_sep (CopilotAPIClient.base_url argument) = false.
Proof.
  unfold CopilotAPIClient.base_url.
  induction argument as [|c rest (n & Hrest & Hend)].
  - exists 0%nat. split; reflexivity.
  - cbn [CopilotAPIClient.rstrip_sep].
    destruct (CopilotAPIClient.rstrip_sep rest) as [|a kept] eqn:Hkept.
    + destruct (Ascii.eqb_spec c "/") as [-> | Hc].
      * exists (S n). split; [cbn; now rewrite Hrest | reflexivity].
      * exists n. split; [cbn; now rewrite Hrest|].
        cbn. now apply Ascii.eqb_neq.
    + exists n. split; [cbn; now rewrite Hrest at 1|].
      rewrite endswith_sep_cons by discriminate. exact Hend.
Qed.

Section ClientAndServer.
Variable REPOS_BASE_PATH : string.
Variable ALLOWED_REPOS : list string.
Variable w : World.

(** On execute, a request that got to run a command is answered 200. *)
Lemma execute_spawned_status (data : Request) :
  spawned (snd (execute_copilot REPOS_BASE_PATH ALLOWED_REPOS w data []))
    <> [] ->
  status (fst (execute_copilot REPOS_BASE_PATH ALLOWED_REPOS w data []))
    = 200.
Proof.
  split_route; intros Hspawned; try reflexivity;
    exfalso; apply Hspawned; reflexivity.
Qed.

(** On the multi-step routes, a failed command is answered 500. *)
Lemma failed_step_status (endpoint : Endpoint) (data : Request) (i : nat) :
  endpoint <> ApiCopilotExecute ->
  failed_at w
    (snd (dispatch REPOS_BASE_PATH ALLOWED_REPOS w endpoint data [])) i
    = true ->
  status (fst (dispatch REPOS_BASE_PATH ALLOWED_REPOS w endpoint data []))
    = 500.
Proof.
  intros Hroute.
  destruct endpoint; [contradiction| |].
  all: split_route; intros Hfailed; try reflexivity.
  all: at_position i; try discriminate Hfailed; not_the_failed Hfailed.
Qed.

Variable post : string -> Request -> Response.
Variable base_url_argument : string.

(** X13: with a transport that delivers each payload to its route, the
    client's [execute_copilot] returns the body (it does not raise) once
    the server ran a command, even a failed one, while [commit_and_push] and
    [copilot_workflow] raise [HTTPError] 500 whenever a command of the
    request failed; the server sees the request as the caller gave it,
    empty [branch] and [files] included. *)
Theorem client_raises_for_failed_workflow_only
    (name p msg : string) (b : option string) (f : option (list string)) :
  (forall (endpoint : Endpoint) (payload : Request),
      post (CopilotAPIClient.base_url base_url_argument ++ rule endpoint)
        payload
      = fst (dispatch REPOS_BASE_PATH ALLOWED_REPOS w endpoint payload [])) ->
  (spawned
     (snd (execute_copilot REPOS_BASE_PATH ALLOWED_REPOS w
             {| repo_name := Some name; prompt := Some p;
                commit_message := None; branch := None; files := f |} []))
     <> [] ->
   CopilotAPIClient.execute_copilot post base_url_argument name p f
   = CopilotAPIClient.Returned
       (body
          (fst (execute_copilot REPOS_BASE_PATH ALLOWED_REPOS w
                  {| repo_name := Some name; prompt := Some p;
                     commit_message := None; branch := None;
                     files := f |} []))))
  /\ (forall i : nat,
        failed_at w
          (snd (commit_and_push REPOS_BASE_PATH ALLOWED_REPOS w
                  {| repo_name := Some name; prompt := None;
                     commit_message := Some msg; branch := b;
                     files := f |} [])) i = true ->
        CopilotAPIClient.commit_and_push post base_url_argument name msg b f
        = CopilotAPIClient.HTTPError 500)
  /\ (forall i : nat,
        failed_at w
          (snd (copilot_commit_push_workflow REPOS_BASE_PATH ALLOWED_REPOS w
                  {| repo_name := Some name; prompt := Some p;
                     commit_message := Some msg; branch := b;
                     files := f |} [])) i = true ->
        CopilotAPIClient.copilot_workflow post base_url_argument name p msg
          b f
        = CopilotAPIClient.HTTPError 500).
Proof.
  intros Hdelivered.
  unfold CopilotAPIClient.execute_copilot, CopilotAPIClient.commit_and_push,
    CopilotAPIClient.copilot_workflow.
  pose proof (Hdelivered ApiCopilotExecute) as Hexecute.
  pose proof (Hdelivered ApiGitCommitAndPush) as Hcommit.
  pose proof (Hdelivered ApiWorkflowCopilotCommitPush) as Hworkflow.
  cbn [rule dispatch] in Hexecute, Hcommit, Hworkflow.
  rewrite Hexecute, Hcommit, Hworkflow.
  split; [|split].
  - intros Hspawned.
    pose proof (dispatch_without_empty REPOS_BASE_PATH ALLOWED_REPOS w
                  ApiCopilotExecute
                  {| repo_name := Some name; prompt := Some p;
                     commit_message := None; branch := None;
                     files := f |}) as Hsame.
    cbn [dispatch] in Hsame.
    change (CopilotAPIClient.execute_copilot_payload name p f)
      with (without_empty
              {| repo_name := Some name; prompt := Some p;
                 commit_message := None; branch := None; files := f |}).
    rewrite Hsame. unfold CopilotAPIClient.json_or_raise.
    now rewrite (execute_spawned_status _ Hspawned).
  - intros i Hfailed.
    pose proof (dispatch_without_empty REPOS_BASE_PATH ALLOWED_REPOS w
                  ApiGitCommitAndPush
                  {| repo_name := Some name; prompt := None;
                     commit_message := Some msg; branch := b;
                     files := f |}) as Hsame.
    cbn [dispatch] in Hsame.
    change (CopilotAPIClient.commit_and_push_payload name msg b f)
      with (without_empty
              {| repo_name := Some name; prompt := None;
                 commit_message := Some msg; branch := b; files := f |}).
    rewrite Hsame. unfold CopilotAPIClient.json_or_raise.
    pose proof (failed_step_status ApiGitCommitAndPush _ i
                  ltac:(discriminate) Hfailed) as Hstatus.
    cbn [dispatch] in Hstatus. now rewrite Hstatus.
  - intros i Hfailed.
    pose proof (dispatch_without_empty REPOS_BASE_PATH ALLOWED_REPOS w
                  ApiWorkflowCopilotCommitPush
                  {| repo_name := Some name; prompt := Some p;
                     commit_message := Some msg; branch := b;
                     files := f |}) as Hsame.
    cbn [dispatch] in Hsame.
    change (CopilotAPIClient.copilot_workflow_payload name p msg b f)
      with (without_empty
              {| repo_name := Some name; prompt := Some p;
                 commit_message := Some msg; branch := b; files := f |}).
    rewrite Hsame. unfold CopilotAPIClient.json_or_raise.
    pose proof (failed_step_status ApiWorkflowCopilotCommitPush _ i
                  ltac:(discriminate) Hfailed) as Hstatus.
    cbn [dispatch] in Hstatus. now rewrite Hstatus.
Qed.

End ClientAndServer.

Lemma loopback_delivers (endpoint : Endpoint) (payload : Request) :
  loopback "/var/repos" [""] (demo_world copilot_fails)
    "http://localhost:5000"
    (CopilotAPIClient.base_url "http://localhost:5000/" ++ rule endpoint)
    payload
  = fst (dispatch "/var/repos" [""] (demo_world copilot_fails) endpoint
           payload []).
Proof. destruct endpoint; reflexivity. Qed.

Lemma client_raises_for_failed_workflow_only_witness :
  CopilotAPIClient.execute_copilot
    (loopback "/var/repos" [""] (demo_world copilot_fails)
       "http://localhost:5000")
    "http://localhost:5000/" "demo" "Add error handling" None
  = CopilotAPIClient.Returned
      (JObj [("success", JBool false); ("output", JStr "");
             ("error", JStr "unknown command"); ("git_status", JStr "ok");
             ("timestamp", JStr "2024-01-01T00:00:00")])
  /\ CopilotAPIClient.copilot_workflow
       (loopback "/var/repos" [""] (demo_world copilot_fails)
          "http://localhost:5000")
       "http://localhost:5000/" "demo" "Add error handling" "fix" None None
     = CopilotAPIClient.HTTPError 500.
Proof.
  destruct (client_raises_for_failed_workflow_only "/var/repos" [""]
              (demo_world copilot_fails)
              (loopback "/var/repos" [""] (demo_world copilot_fails)
                 "http://localhost:5000")
              "http://localhost:5000/" "demo" "Add error handling" "fix"
              None None loopback_delivers)
    as (Hexecute & _ & Hworkflow).
  split.
  - apply Hexecute. discriminate.
  - apply (Hworkflow 2%nat). reflexivity.
Defined.

(** ** Concrete runs of the further properties *)

Lemma commands_run_in_validated_repo_witness :
  exists rest : list Event,
    snd (dispatch "/var/repos" [""] (demo_world all_succeed)
           ApiGitCommitAndPush demo_request []) =
      PathExists "/var/repos/demo" :: PathExists "/var/repos/demo/.git"
      :: rest
    /\ os_path_exists (demo_world all_succeed) [] "/var/repos/demo" = true
    /\ os_path_exists (demo_world all_succeed)
         [PathExists "/var/repos/demo"] "/var/repos/demo/.git" = true
    /\ probed rest = []
    /\ all_in_dir "/var/repos/demo" rest = true.
Proof.
  apply (commands_run_in_validated_repo "/var/repos" [""]
           (demo_world all_succeed) ApiGitCommitAndPush demo_request).
  discriminate.
Defined.

Lemma execute_always_reports_git_status_witness :
  exists r st : CommandResult,
    results_of (demo_world copilot_fails)
      (snd (execute_copilot "/var/repos" [""] (demo_world copilot_fails)
              demo_request []))
      = [r; st]
    /\ map step_of
         (spawned
            (snd (execute_copilot "/var/repos" [""]
                    (demo_world copilot_fails) demo_request [])))
       = [Some Generate; Some Status]
    /\ fst (execute_copilot "/var/repos" [""] (demo_world copilot_fails)
              demo_request []) =
         {| body :=
              JObj [("success", JBool (success r));
                    ("output", JStr (stdout r));
                    ("error", JStr (stderr r));
                    ("git_status", JStr (stdout st));
                    ("timestamp", JStr "2024-01-01T00:00:00")];
            status := 200 |}.
Proof.
  apply (execute_always_reports_git_status "/var/repos" [""]
           (demo_world copilot_fails) demo_request).
  - reflexivity.
  - reflexivity.
  - reflexivity.
Defined.

Lemma routes_never_checkout_witness :
  (step_of ["git"; "commit"; "-m"; "fix"] = Some Add
   \/ step_of ["git"; "commit"; "-m"; "fix"] = Some Commit
   \/ step_of ["git"; "commit"; "-m"; "fix"] = Some Push)
  /\ forall (w' : World) (repo_path branch : string) (create : bool),
       ~ In ["git"; "commit"; "-m"; "fix"]
           (spawned
              (snd (CopilotExecutor.git_checkout_branch w' repo_path branch
                      create []))).
Proof.
  apply (routes_never_checkout "/var/repos" [""] (demo_world all_succeed)
           ApiGitCommitAndPush demo_request ["git"; "commit"; "-m"; "fix"]).
  simpl. right. left. reflexivity.
Defined.

Lemma absolute_repo_name_ignores_base_witness :
  Py.path_join "/var/repos" "/etc/app" = "/etc/app"
  /\ dispatch "/var/repos" [""] (demo_world all_succeed) ApiCopilotExecute
       {| repo_name := Some "/etc/app"; prompt := Some "hi";
          commit_message := None; branch := None; files := None |} []
     = dispatch "/srv" [""] (demo_world all_succeed) ApiCopilotExecute
         {| repo_name := Some "/etc/app"; prompt := Some "hi";
            commit_message := None; branch := None; files := None |} [].
Proof.
  apply (absolute_repo_name_ignores_base "/var/repos" "/srv" [""]
           (demo_world all_succeed) ApiCopilotExecute
           {| repo_name := Some "/etc/app"; prompt := Some "hi";
              commit_message := None; branch := None; files := None |}
           "/etc/app").
  - reflexivity.
  - reflexivity.
Defined.
